(** * OpenFPGA: linking the OpenFPGA architecture to VPR, and repacking

    A shallow embedding of [openfpga_link_arch.cpp] and [openfpga_repack.cpp]
    (namespace [openfpga]).  The VPR data structures and the passes that live
    in other libraries (annotate_pb_types, pack_physical_pbs, ...) are kept
    abstract: they are parameters of the development, so every theorem holds
    for any implementation of them.  The calls that the two top-level
    functions make are recorded in a trace, so that the order of the passes
    can be stated. *)

From Stdlib Require Import List Bool Floats Arith Lia String Permutation ZArith.
From Stdlib Require QArith.
Import ListNotations.

(* ------------------------------------------------------------------ *)
(** ** The routing resource graph, as read by the checker *)

(** VPR's [t_rr_type]. *)
Inductive t_rr_type : Type :=
| SOURCE | SINK | IPIN | OPIN | CHANX | CHANY.

(** VPR's [e_direction]. *)
Inductive e_direction : Type :=
| INC_DIRECTION | DEC_DIRECTION | BI_DIRECTION | NO_DIRECTION.

Scheme Equality for t_rr_type.
Scheme Equality for e_direction.

(** One node of the graph: [rr_graph.node_type(node)] and
    [rr_graph.node_direction(node)]. *)
Record RRNode : Type := mkRRNode {
  node_type : t_rr_type;
  node_direction : e_direction
}.

(** [rr_graph.nodes()], in iteration order. *)
Definition RRGraph : Type := list RRNode.

(** [is_vpr_rr_graph_supported]: the loop over the nodes; a node that is
    neither CHANX nor CHANY is skipped ([continue]); the first channel node
    whose direction is BI_DIRECTION makes the function return false (after
    logging an error). *)
Fixpoint is_vpr_rr_graph_supported (nodes : RRGraph) : bool :=
  match nodes with
  | [] => true
  | node :: rest =>
      if negb (t_rr_type_beq CHANX (node_type node))
         && negb (t_rr_type_beq CHANY (node_type node))
      then is_vpr_rr_graph_supported rest
      else if e_direction_beq BI_DIRECTION (node_direction node)
      then false
      else is_vpr_rr_graph_supported rest
  end.

(** Helper predicates used to state properties of the checker. *)
Definition is_chan_node (n : RRNode) : bool :=
  match node_type n with CHANX | CHANY => true | _ => false end.

Definition is_bidir_chan_node (n : RRNode) : bool :=
  is_chan_node n && match node_direction n with BI_DIRECTION => true | _ => false end.

(* ------------------------------------------------------------------ *)
(** ** Calls made by the top-level functions, and a writer monad for them *)

(** The calls to other passes (and to VPR's timing analyser) that
    [link_arch] makes, in the order in which they are made. *)
Inductive Event : Type :=
| EvAnnotatePbTypes              (* annotate_pb_types *)
| EvAnnotatePbGraph              (* annotate_pb_graph *)
| EvAnnotateRRGraphCircuitModels (* annotate_rr_graph_circuit_models *)
| EvInitRoutingAnnotation        (* mutable_vpr_routing_annotation().init *)
| EvAnnotateRRNodeNets           (* annotate_rr_node_nets *)
| EvCheckRRGraph                 (* is_vpr_rr_graph_supported *)
| EvAnnotateDeviceRRGSB          (* annotate_device_rr_gsb *)
| EvBuildMuxLibrary              (* build_device_mux_library *)
| EvBuildTileDirect              (* build_device_tile_direct *)
| EvAnnotateMappedBlocks         (* annotate_mapped_blocks *)
| EvTimingAnalysis.              (* timing_info->update() and least_slack_critical_path() *)

Scheme Equality for Event.

(** A computation returning [A] together with the calls it made. *)
Definition Tr (A : Type) : Type := (A * list Event)%type.

Definition tr_ret {A : Type} (a : A) : Tr A := (a, []).

Definition tr_bind {A B : Type} (m : Tr A) (k : A -> Tr B) : Tr B :=
  let (a, l1) := m in
  let (b, l2) := k a in
  (b, l1 ++ l2).

(** Record a call [e] whose result is [a]. *)
Definition call {A : Type} (e : Event) (a : A) : Tr A := (a, [e]).

Notation "x <- m ;; k" := (tr_bind m (fun x => k))
  (at level 61, m at next level, right associativity).

(* ------------------------------------------------------------------ *)
(** ** Simulation settings *)

(** The fields of [SimulationSetting] that [annotate_simulation_setting]
    reads or writes, and the cycle count that it leaves alone.  The C++
    fields are [float]; their values are held here as binary64 numbers
    (every binary32 value is one). *)
Record SimulationSetting : Type := mkSimulationSetting {
  operating_clock_frequency : float;
  operating_clock_frequency_slack : float;
  num_clock_cycles : nat
}.

Definition set_operating_clock_frequency (s : SimulationSetting) (f : float)
  : SimulationSetting :=
  mkSimulationSetting f (operating_clock_frequency_slack s) (num_clock_cycles s).

(* ------------------------------------------------------------------ *)
(** ** Exit codes of the command shell ([command_exit_codes.h]) *)

Definition CMD_EXEC_SUCCESS : nat := 0.
Definition CMD_EXEC_FATAL_ERROR : nat := 1.
Definition CMD_EXEC_MINOR_ERROR : nat := 2.

(* ------------------------------------------------------------------ *)
(** ** link_arch and repack *)

Section OpenfpgaCommands.

(** The VPR contexts and the OpenFPGA annotations are opaque here. *)
Context {DeviceGrid AtomContext ClusteringContext RoutingContext
         PlacementContext : Type}.
Context {CircuitLibrary ArchDirect : Type}.
Context {VprDeviceAnnotation VprClusteringAnnotation VprRoutingAnnotation
         DeviceRRGSB MuxLibrary TileDirect VprPlacementAnnotation : Type}.
Context {RepackDesignConstraints : Type}.

(** [g_vpr_ctx.device()]: the grid (and the rest) and the routing graph. *)
Record DeviceContext : Type := mkDeviceContext {
  grid : DeviceGrid;
  rr_graph : RRGraph
}.

(** [g_vpr_ctx]. *)
Record VprContext : Type := mkVprContext {
  device : DeviceContext;
  atom : AtomContext;
  clustering : ClusteringContext;
  placement : PlacementContext;
  routing : RoutingContext
}.

(** [openfpga_ctx.arch()]: the parts used here. *)
Record Arch : Type := mkArch {
  circuit_lib : CircuitLibrary;
  arch_direct : ArchDirect;
  sim_setting : SimulationSetting
}.

(** [OpenfpgaContext]. *)
Record OpenfpgaContext : Type := mkOpenfpgaContext {
  arch : Arch;
  vpr_device_annotation : VprDeviceAnnotation;
  vpr_clustering_annotation : VprClusteringAnnotation;
  vpr_routing_annotation : VprRoutingAnnotation;
  device_rr_gsb : DeviceRRGSB;
  mux_lib : MuxLibrary;
  tile_direct : TileDirect;
  vpr_placement_annotation : VprPlacementAnnotation
}.

(** The [mutable_*()] accessors, as functional updates. *)
Definition set_arch (c : OpenfpgaContext) (x : Arch) : OpenfpgaContext :=
  mkOpenfpgaContext x (vpr_device_annotation c) (vpr_clustering_annotation c)
    (vpr_routing_annotation c) (device_rr_gsb c) (mux_lib c) (tile_direct c)
    (vpr_placement_annotation c).
Definition set_vpr_device_annotation (c : OpenfpgaContext) (x : VprDeviceAnnotation)
  : OpenfpgaContext :=
  mkOpenfpgaContext (arch c) x (vpr_clustering_annotation c)
    (vpr_routing_annotation c) (device_rr_gsb c) (mux_lib c) (tile_direct c)
    (vpr_placement_annotation c).
Definition set_vpr_clustering_annotation (c : OpenfpgaContext)
  (x : VprClusteringAnnotation) : OpenfpgaContext :=
  mkOpenfpgaContext (arch c) (vpr_device_annotation c) x
    (vpr_routing_annotation c) (device_rr_gsb c) (mux_lib c) (tile_direct c)
    (vpr_placement_annotation c).
Definition set_vpr_routing_annotation (c : OpenfpgaContext) (x : VprRoutingAnnotation)
  : OpenfpgaContext :=
  mkOpenfpgaContext (arch c) (vpr_device_annotation c) (vpr_clustering_annotation c)
    x (device_rr_gsb c) (mux_lib c) (tile_direct c) (vpr_placement_annotation c).
Definition set_device_rr_gsb (c : OpenfpgaContext) (x : DeviceRRGSB) : OpenfpgaContext :=
  mkOpenfpgaContext (arch c) (vpr_device_annotation c) (vpr_clustering_annotation c)
    (vpr_routing_annotation c) x (mux_lib c) (tile_direct c) (vpr_placement_annotation c).
Definition set_mux_lib (c : OpenfpgaContext) (x : MuxLibrary) : OpenfpgaContext :=
  mkOpenfpgaContext (arch c) (vpr_device_annotation c) (vpr_clustering_annotation c)
    (vpr_routing_annotation c) (device_rr_gsb c) x (tile_direct c)
    (vpr_placement_annotation c).
Definition set_tile_direct (c : OpenfpgaContext) (x : TileDirect) : OpenfpgaContext :=
  mkOpenfpgaContext (arch c) (vpr_device_annotation c) (vpr_clustering_annotation c)
    (vpr_routing_annotation c) (device_rr_gsb c) (mux_lib c) x
    (vpr_placement_annotation c).
Definition set_vpr_placement_annotation (c : OpenfpgaContext)
  (x : VprPlacementAnnotation) : OpenfpgaContext :=
  mkOpenfpgaContext (arch c) (vpr_device_annotation c) (vpr_clustering_annotation c)
    (vpr_routing_annotation c) (device_rr_gsb c) (mux_lib c) (tile_direct c) x.

(** The passes from other files that [link_arch] calls, with the
    signatures of their C++ declarations (an object passed by mutable
    reference is both an argument and the result). *)
Record LinkPasses : Type := mkLinkPasses {
  annotate_pb_types :
    DeviceContext -> Arch -> VprDeviceAnnotation -> bool -> VprDeviceAnnotation;
  annotate_pb_graph :
    DeviceContext -> VprDeviceAnnotation -> bool -> VprDeviceAnnotation;
  annotate_rr_graph_circuit_models :
    DeviceContext -> Arch -> VprDeviceAnnotation -> bool -> VprDeviceAnnotation;
  vpr_routing_annotation_init : RRGraph -> VprRoutingAnnotation -> VprRoutingAnnotation;
  annotate_rr_node_nets :
    DeviceContext -> ClusteringContext -> RoutingContext -> VprRoutingAnnotation ->
    bool -> VprRoutingAnnotation;
  annotate_device_rr_gsb : DeviceContext -> DeviceRRGSB -> bool -> DeviceRRGSB;
  build_device_mux_library : DeviceContext -> OpenfpgaContext -> MuxLibrary;
  build_device_tile_direct : DeviceContext -> ArchDirect -> TileDirect;
  annotate_mapped_blocks :
    DeviceContext -> ClusteringContext -> PlacementContext -> VprPlacementAnnotation ->
    VprPlacementAnnotation;
  (** net delays loaded from the routing, then
      [timing_info->least_slack_critical_path().delay()] *)
  least_slack_critical_path_delay : VprContext -> float
}.

Context (passes : LinkPasses).

(** Conversion of a C++ [double] to [float] (rounding to binary32). *)
Context (float_of_double : float -> float).

(** [annotate_simulation_setting].  The sentinel test is the C++
    [0. == sim_setting.operating_clock_frequency()] (IEEE equality).
    [T_crit] is a [float] computed in [double]; [1 / T_crit] is a [float]
    division, i.e. the binary64 quotient rounded to binary32. *)
Definition annotate_simulation_setting (vpr : VprContext) (s : SimulationSetting)
  : Tr SimulationSetting :=
  if PrimFloat.eqb 0%float (operating_clock_frequency s) then
    d <- call EvTimingAnalysis (least_slack_critical_path_delay passes vpr) ;;
    let T_crit :=
      float_of_double (d * (1 + operating_clock_frequency_slack s))%float in
    tr_ret (set_operating_clock_frequency s (float_of_double (1 / T_crit)%float))
  else tr_ret s.

(** [link_arch]; [verbose] is [cmd_context.option_enable(cmd, opt_verbose)].
    The result is the updated [openfpga_ctx]. *)
Definition link_arch (vpr : VprContext) (ctx : OpenfpgaContext) (verbose : bool)
  : Tr OpenfpgaContext :=
  let dev := device vpr in
  da1 <- call EvAnnotatePbTypes
           (annotate_pb_types passes dev (arch ctx) (vpr_device_annotation ctx) verbose) ;;
  da2 <- call EvAnnotatePbGraph (annotate_pb_graph passes dev da1 verbose) ;;
  da3 <- call EvAnnotateRRGraphCircuitModels
           (annotate_rr_graph_circuit_models passes dev (arch ctx) da2 verbose) ;;
  let ctx := set_vpr_device_annotation ctx da3 in
  ra1 <- call EvInitRoutingAnnotation
           (vpr_routing_annotation_init passes (rr_graph dev) (vpr_routing_annotation ctx)) ;;
  ra2 <- call EvAnnotateRRNodeNets
           (annotate_rr_node_nets passes dev (clustering vpr) (routing vpr) ra1 verbose) ;;
  let ctx := set_vpr_routing_annotation ctx ra2 in
  supported <- call EvCheckRRGraph (is_vpr_rr_graph_supported (rr_graph dev)) ;;
  if negb supported then tr_ret ctx else
  gsb <- call EvAnnotateDeviceRRGSB
           (annotate_device_rr_gsb passes dev (device_rr_gsb ctx) verbose) ;;
  let ctx := set_device_rr_gsb ctx gsb in
  mux <- call EvBuildMuxLibrary (build_device_mux_library passes dev ctx) ;;
  let ctx := set_mux_lib ctx mux in
  td <- call EvBuildTileDirect
          (build_device_tile_direct passes dev (arch_direct (arch ctx))) ;;
  let ctx := set_tile_direct ctx td in
  pa <- call EvAnnotateMappedBlocks
          (annotate_mapped_blocks passes dev (clustering vpr) (placement vpr)
             (vpr_placement_annotation ctx)) ;;
  let ctx := set_vpr_placement_annotation ctx pa in
  sim <- annotate_simulation_setting vpr (sim_setting (arch ctx)) ;;
  tr_ret (set_arch ctx (mkArch (circuit_lib (arch ctx)) (arch_direct (arch ctx)) sim)).


(* ------------------------------------------------------------------ *)
(** ** repack *)

(** The options of the [repack] command that [repack] reads:
    [option_enable]/[option_value] of [design_constraints], and
    [option_enable] of [verbose]. *)
Record RepackOptions : Type := mkRepackOptions {
  design_constraints_enabled : bool;
  design_constraints_value : string;
  verbose_enabled : bool
}.

(** The functions from other files that [repack] calls.  [pack_physical_pbs]
    and [build_physical_lut_truth_tables] are [void]; besides the annotations
    they update, each one is given here a flag telling whether it did its job
    without error.  That flag does not reach [repack] (its C++ signature has
    no way to return it): the model makes it observable only so that the
    failure of a step can be stated. *)
Record RepackPasses : Type := mkRepackPasses {
  (** the default-constructed [RepackDesignConstraints] *)
  empty_design_constraints : RepackDesignConstraints;
  read_xml_repack_design_constraints : string -> RepackDesignConstraints;
  pack_physical_pbs :
    DeviceContext -> AtomContext -> ClusteringContext -> VprDeviceAnnotation ->
    VprClusteringAnnotation -> bool ->
    (VprDeviceAnnotation * VprClusteringAnnotation * bool);
  build_physical_lut_truth_tables :
    VprClusteringAnnotation -> AtomContext -> ClusteringContext ->
    VprDeviceAnnotation -> CircuitLibrary -> bool ->
    (VprClusteringAnnotation * bool)
}.

Context (rpasses : RepackPasses).

(** [std::string::empty()]. *)
Definition string_empty (s : string) : bool :=
  match s with EmptyString => true | String _ _ => false end.

(** The first block of [repack]: load the design constraints from file.
    [VTR_ASSERT(false == dc_fname.empty())] aborts the process when it
    fails: [None]. *)
Definition load_repack_design_constraints (opts : RepackOptions)
  : option RepackDesignConstraints :=
  if design_constraints_enabled opts then
    let dc_fname := design_constraints_value opts in
    if negb (string_empty dc_fname)
    then Some (read_xml_repack_design_constraints rpasses dc_fname)
    else None
  else Some (empty_design_constraints rpasses).

(** [repack]: [None] when the process aborts on the assertion, otherwise
    the returned exit code and the updated [openfpga_ctx]. *)
Definition repack (vpr : VprContext) (ctx : OpenfpgaContext) (opts : RepackOptions)
  : option (nat * OpenfpgaContext) :=
  match load_repack_design_constraints opts with
  | None => None
  | Some repack_design_constraints =>
      let verbose := verbose_enabled opts in
      let '(da, ca, _) :=
        pack_physical_pbs rpasses (device vpr) (atom vpr) (clustering vpr)
          (vpr_device_annotation ctx) (vpr_clustering_annotation ctx) verbose in
      let ctx := set_vpr_clustering_annotation (set_vpr_device_annotation ctx da) ca in
      let '(ca', _) :=
        build_physical_lut_truth_tables rpasses (vpr_clustering_annotation ctx)
          (atom vpr) (clustering vpr) (vpr_device_annotation ctx)
          (circuit_lib (arch ctx)) verbose in
      let ctx := set_vpr_clustering_annotation ctx ca' in
      (* TODO: should identify the error code from internal function execution *)
      Some (CMD_EXEC_SUCCESS, ctx)
  end.

End OpenfpgaCommands.

(* ------------------------------------------------------------------ *)
(** ** The multiplexer library (mux_library_builder) *)

Module MuxLibraryModel.

(** The structural signature of a multiplexer: the ordered input-source
    classes, the output class and the circuit model. *)
Record MuxSignature : Type := mkMuxSignature {
  mux_inputs : list nat;
  mux_output : nat;
  mux_circuit_model : nat
}.

Definition mux_signature_eq_dec (a b : MuxSignature) : {a = b} + {a <> b}.
Proof.
  decide equality; try apply Nat.eq_dec.
  apply (list_eq_dec Nat.eq_dec).
Defined.

(** A library: the canonical entries, the position of an entry being its
    canonical identifier. *)
Definition MuxLibrary : Type := list MuxSignature.

(** The identifier of [s] in [lib], if it is there. *)
Fixpoint mux_lookup (lib : MuxLibrary) (s : MuxSignature) : option nat :=
  match lib with
  | [] => None
  | e :: rest =>
      if mux_signature_eq_dec e s then Some 0
      else option_map S (mux_lookup rest s)
  end.

(** Modelled from the spec: [add_mux] of the mux-library builder
    (mux_library_builder.cpp, not in this source set): look the signature up
    in the growing library; if it is absent, allocate a new canonical entry
    (first-seen order), else reuse the existing one.  Returns the library and
    the identifier. *)
Definition add_mux (lib : MuxLibrary) (s : MuxSignature) : MuxLibrary * nat :=
  match mux_lookup lib s with
  | Some id => (lib, id)
  | None => (lib ++ [s], List.length lib)
  end.

(** Modelled from the spec: [build_device_mux_library]
    (mux_library_builder.cpp, not in this source set), given the signature
    of every multiplexer implied by the GSBs and the pb interconnect, one per
    physical instance, in traversal order. *)
Definition build_device_mux_library (mux_instances : list MuxSignature) : MuxLibrary :=
  fold_left (fun lib s => fst (add_mux lib s)) mux_instances [].

End MuxLibraryModel.

(* ------------------------------------------------------------------ *)
(** ** A small concrete instance, used by the examples below *)

Module Fixture.

(** The upstream passes, on annotations that are lists of entries: each
    pass records one entry. *)
Definition passes : @LinkPasses unit unit unit unit unit unit unit
  (list nat) (list nat) (list nat) (list nat) (list nat) (list nat) (list nat) := {|
  annotate_pb_types := fun _ _ da _ => 1 :: da;
  annotate_pb_graph := fun _ da _ => 2 :: da;
  annotate_rr_graph_circuit_models := fun _ _ da _ => 3 :: da;
  vpr_routing_annotation_init := fun g _ => repeat 0 (List.length g);
  annotate_rr_node_nets := fun _ _ _ ra _ => map S ra;
  annotate_device_rr_gsb := fun _ gsb _ => 4 :: gsb;
  build_device_mux_library := fun _ _ => [5];
  build_device_tile_direct := fun _ _ => [6];
  annotate_mapped_blocks := fun _ _ _ pa => 7 :: pa;
  least_slack_critical_path_delay := fun _ => 0.5%float
|}.

(** No rounding: a stand-in for the [double] to [float] conversion. *)
Definition no_rounding (x : float) : float := x.

(** A graph with one bidirectional CHANX node, and a uni-directional one. *)
Definition bidir_graph : RRGraph :=
  [mkRRNode OPIN NO_DIRECTION; mkRRNode CHANX BI_DIRECTION].
Definition unidir_graph : RRGraph :=
  [mkRRNode CHANX INC_DIRECTION; mkRRNode CHANY DEC_DIRECTION;
   mkRRNode IPIN BI_DIRECTION].

Definition vpr_of (g : RRGraph) : @VprContext unit unit unit unit unit :=
  mkVprContext (mkDeviceContext tt g) tt tt tt tt.

Definition sim_derive : SimulationSetting := mkSimulationSetting 0%float 0.25%float 100.
Definition sim_fixed : SimulationSetting := mkSimulationSetting 1e8%float 0.25%float 100.
Definition sim_negative : SimulationSetting := mkSimulationSetting (-5)%float 0.25%float 100.

Definition ctx_with (s : SimulationSetting)
  : @OpenfpgaContext unit unit (list nat) (list nat) (list nat) (list nat)
      (list nat) (list nat) (list nat) :=
  mkOpenfpgaContext (mkArch tt tt s) [] [] [] [] [] [] [].

Definition ctx0 := ctx_with sim_derive.

(** The repack passes; [pack_ok] is what [pack_physical_pbs] reports about
    its own run, and the constraint file holds two constraints on the same
    physical pin (atom net 1 and atom net 2 on pin 7). *)
Definition rpasses (pack_ok : bool) : @RepackPasses unit unit unit unit
  (list nat) (list nat) (list (nat * nat)) := {|
  empty_design_constraints := [];
  read_xml_repack_design_constraints := fun _ => [(1, 7); (2, 7)];
  pack_physical_pbs := fun _ _ _ da ca _ => (da, 8 :: ca, pack_ok);
  build_physical_lut_truth_tables := fun ca _ _ _ _ _ => (9 :: ca, true)
|}.

Definition opts_dc : RepackOptions :=
  mkRepackOptions true "dc.xml"%string false.
Definition opts_dc_empty : RepackOptions := mkRepackOptions true EmptyString false.
Definition opts_none : RepackOptions := mkRepackOptions false EmptyString false.

(** The same passes with a least-slack critical-path delay [d]. *)
Definition passes_with_delay (d : float) : @LinkPasses unit unit unit unit unit unit
  unit (list nat) (list nat) (list nat) (list nat) (list nat) (list nat) (list nat) := {|
  annotate_pb_types := annotate_pb_types passes;
  annotate_pb_graph := annotate_pb_graph passes;
  annotate_rr_graph_circuit_models := annotate_rr_graph_circuit_models passes;
  vpr_routing_annotation_init := vpr_routing_annotation_init passes;
  annotate_rr_node_nets := annotate_rr_node_nets passes;
  annotate_device_rr_gsb := annotate_device_rr_gsb passes;
  build_device_mux_library := build_device_mux_library passes;
  build_device_tile_direct := build_device_tile_direct passes;
  annotate_mapped_blocks := annotate_mapped_blocks passes;
  least_slack_critical_path_delay := fun _ => d
|}.

(** The C++ conversion of a [double] to [float]: round to nearest even in
    binary32 (24-bit significand, largest exponent 128); overflow gives an
    infinity, zeros, infinities and NaN are kept. *)
Definition binary32_of_double (x : float) : float :=
  match Prim2SF x with
  | S754_finite sx mx ex => SF2Prim (SpecFloat.binary_round 24%Z 128%Z sx mx ex)
  | _ => x
  end.

(** The exact rational value of a finite float (0 for the non-finite ones,
    which have none). *)
Definition float_to_Q (x : float) : QArith_base.Q :=
  match Prim2SF x with
  | S754_finite sx mx ex =>
      let n := if sx then Zneg mx else Zpos mx in
      match ex with
      | Zpos p => QArith_base.Qmake (Z.mul n (Zpos (Pos.pow 2 p))) 1
      | Z0 => QArith_base.Qmake n 1
      | Zneg p => QArith_base.Qmake n (Pos.pow 2 p)
      end
  | _ => QArith_base.Qmake Z0 1
  end.

Definition sim_derive_no_slack : SimulationSetting := mkSimulationSetting 0%float 0%float 100.

End Fixture.

(* ================================================================== *)
(** * Properties *)

(* ------------------------------------------------------------------ *)
(** ** The routing-graph checker *)

Lemma is_vpr_rr_graph_supported_forallb (g : RRGraph) :
  is_vpr_rr_graph_supported g = forallb (fun n => negb (is_bidir_chan_node n)) g.
Proof.
  induction g as [| [t d] rest IH]; [reflexivity |].
  simpl; rewrite IH.
  destruct t, d; reflexivity.
Qed.

(** C5: [is_vpr_rr_graph_supported] returns true exactly on the graphs
    whose channel (CHANX/CHANY) nodes are all uni-directional, and false
    exactly on the graphs with a bidirectional channel node; the nodes of
    the other types never change the result (dropping them all gives the
    same answer). *)
Theorem is_vpr_rr_graph_supported_correct (g : RRGraph) :
  (is_vpr_rr_graph_supported g = true <->
     forall n, In n g -> is_chan_node n = true -> node_direction n <> BI_DIRECTION) /\
  (is_vpr_rr_graph_supported g = false <->
     exists n, In n g /\ is_chan_node n = true /\ node_direction n = BI_DIRECTION) /\
  is_vpr_rr_graph_supported g = is_vpr_rr_graph_supported (filter is_chan_node g).
Proof.
  rewrite !is_vpr_rr_graph_supported_forallb.
  split; [| split].
  - rewrite forallb_forall. split.
    + intros H n Hin Hc Hd. specialize (H n Hin).
      unfold is_bidir_chan_node in H; rewrite Hc, Hd in H; discriminate.
    + intros H n Hin. unfold is_bidir_chan_node.
      destruct (is_chan_node n) eqn:Hc; [| reflexivity].
      destruct (node_direction n) eqn:Hd; try reflexivity.
      exfalso; exact (H n Hin Hc Hd).
  - split.
    + intros H. apply not_true_iff_false in H.
      destruct (existsb is_bidir_chan_node g) eqn:E.
      * apply existsb_exists in E as [n [Hin Hb]].
        exists n. unfold is_bidir_chan_node in Hb.
        apply andb_true_iff in Hb as [Hc Hd].
        destruct (node_direction n); try discriminate. auto.
      * exfalso; apply H. apply forallb_forall. intros n Hin.
        destruct (is_bidir_chan_node n) eqn:Hb; [| reflexivity].
        assert (existsb is_bidir_chan_node g = true) as E'
          by (apply existsb_exists; eauto).
        congruence.
    + intros [n [Hin [Hc Hd]]].
      apply not_true_iff_false. rewrite forallb_forall. intros H.
      specialize (H n Hin). unfold is_bidir_chan_node in H.
      rewrite Hc, Hd in H; discriminate.
  - induction g as [| n rest IH]; [reflexivity |].
    simpl. destruct (is_chan_node n) eqn:Hc; simpl; rewrite IH; [reflexivity |].
    unfold is_bidir_chan_node at 1. rewrite Hc. reflexivity.
Qed.

(* ------------------------------------------------------------------ *)
(** ** link_arch *)

(** The calls made by [link_arch], for every input. *)
Lemma link_arch_calls
  {DG AC CC RC PC CL AD DA CA RA GS ML TD PA : Type}
  (passes : @LinkPasses DG AC CC RC PC CL AD DA CA RA GS ML TD PA)
  (fd : float -> float) (vpr : VprContext) (ctx : OpenfpgaContext) (verbose : bool) :
  snd (link_arch passes fd vpr ctx verbose) =
  [EvAnnotatePbTypes; EvAnnotatePbGraph; EvAnnotateRRGraphCircuitModels;
   EvInitRoutingAnnotation; EvAnnotateRRNodeNets; EvCheckRRGraph] ++
  (if is_vpr_rr_graph_supported (rr_graph (device vpr)) then
     [EvAnnotateDeviceRRGSB; EvBuildMuxLibrary; EvBuildTileDirect;
      EvAnnotateMappedBlocks] ++
     (if PrimFloat.eqb 0%float (operating_clock_frequency (sim_setting (arch ctx)))
      then [EvTimingAnalysis] else [])
   else []).
Proof.
  unfold link_arch, annotate_simulation_setting.
  destruct (is_vpr_rr_graph_supported (rr_graph (device vpr))); cbn;
    [destruct (PrimFloat.eqb 0%float _) |]; reflexivity.
Qed.

(** C4 (as the code has it): the passes run in the order
    physical binding (annotate_pb_types, annotate_pb_graph), circuit models
    of the routing graph, routing-net annotation (init, annotate_rr_node_nets),
    then the routing-graph checker, then GSB construction, the mux library,
    tile directs and the placement annotation, then the timing analysis of
    the simulation setting when the frequency is the sentinel.  The checker
    runs before GSB and mux-library construction but after the binding,
    circuit-model and routing-net annotators. *)
Theorem link_arch_pass_order
  {DG AC CC RC PC CL AD DA CA RA GS ML TD PA : Type}
  (passes : @LinkPasses DG AC CC RC PC CL AD DA CA RA GS ML TD PA)
  (fd : float -> float) (vpr : VprContext) (ctx : OpenfpgaContext) (verbose : bool) :
  exists pre post,
    snd (link_arch passes fd vpr ctx verbose) = pre ++ EvCheckRRGraph :: post /\
    pre = [EvAnnotatePbTypes; EvAnnotatePbGraph; EvAnnotateRRGraphCircuitModels;
           EvInitRoutingAnnotation; EvAnnotateRRNodeNets] /\
    post = (if is_vpr_rr_graph_supported (rr_graph (device vpr)) then
              [EvAnnotateDeviceRRGSB; EvBuildMuxLibrary; EvBuildTileDirect;
               EvAnnotateMappedBlocks] ++
              (if PrimFloat.eqb 0%float
                    (operating_clock_frequency (sim_setting (arch ctx)))
               then [EvTimingAnalysis] else [])
            else []).
Proof.
  do 2 eexists. split; [| split; reflexivity].
  rewrite link_arch_calls. reflexivity.
Qed.

(** C4 fails as stated: on a uni-directional graph, the checker is not the
    first pass; annotate_pb_types (physical binding) has run before it. *)
Lemma link_arch_checker_after_annotators :
  exists pre post,
    snd (link_arch Fixture.passes Fixture.no_rounding
           (Fixture.vpr_of Fixture.unidir_graph) Fixture.ctx0 false)
    = pre ++ EvCheckRRGraph :: post /\
    In EvAnnotatePbTypes pre /\ In EvAnnotateRRNodeNets pre /\
    In EvBuildMuxLibrary post.
Proof.
  exists [EvAnnotatePbTypes; EvAnnotatePbGraph; EvAnnotateRRGraphCircuitModels;
          EvInitRoutingAnnotation; EvAnnotateRRNodeNets].
  exists [EvAnnotateDeviceRRGSB; EvBuildMuxLibrary; EvBuildTileDirect;
          EvAnnotateMappedBlocks; EvTimingAnalysis].
  split; [vm_compute; reflexivity |].
  simpl; tauto.
Qed.

(** C2 (as the code has it): when the routing graph has a bidirectional
    channel node, [link_arch] returns right after the checker: the GSBs,
    the mux library, the tile directs, the placement annotation, the
    clustering annotation and the architecture (simulation setting) are left
    as they were, but the device annotation (annotate_pb_types,
    annotate_pb_graph, annotate_rr_graph_circuit_models) and the routing
    annotation (init, annotate_rr_node_nets) have been computed. *)
Theorem link_arch_unsupported_rr_graph
  {DG AC CC RC PC CL AD DA CA RA GS ML TD PA : Type}
  (passes : @LinkPasses DG AC CC RC PC CL AD DA CA RA GS ML TD PA)
  (fd : float -> float) (vpr : VprContext) (ctx : OpenfpgaContext) (verbose : bool) :
  is_vpr_rr_graph_supported (rr_graph (device vpr)) = false ->
  link_arch passes fd vpr ctx verbose =
  (mkOpenfpgaContext (arch ctx)
     (annotate_rr_graph_circuit_models passes (device vpr) (arch ctx)
        (annotate_pb_graph passes (device vpr)
           (annotate_pb_types passes (device vpr) (arch ctx)
              (vpr_device_annotation ctx) verbose) verbose) verbose)
     (vpr_clustering_annotation ctx)
     (annotate_rr_node_nets passes (device vpr) (clustering vpr) (routing vpr)
        (vpr_routing_annotation_init passes (rr_graph (device vpr))
           (vpr_routing_annotation ctx)) verbose)
     (device_rr_gsb ctx) (mux_lib ctx) (tile_direct ctx) (vpr_placement_annotation ctx),
   [EvAnnotatePbTypes; EvAnnotatePbGraph; EvAnnotateRRGraphCircuitModels;
    EvInitRoutingAnnotation; EvAnnotateRRNodeNets; EvCheckRRGraph]).
Proof.
  intros Hunsup. unfold link_arch. rewrite Hunsup. reflexivity.
Qed.

Lemma link_arch_unsupported_rr_graph_witness :
  is_vpr_rr_graph_supported (rr_graph (device (Fixture.vpr_of Fixture.bidir_graph)))
    = false /\
  link_arch Fixture.passes Fixture.no_rounding (Fixture.vpr_of Fixture.bidir_graph)
    Fixture.ctx0 false =
  (mkOpenfpgaContext (arch Fixture.ctx0) [3; 2; 1] [] [1; 1] [] [] [] [],
   [EvAnnotatePbTypes; EvAnnotatePbGraph; EvAnnotateRRGraphCircuitModels;
    EvInitRoutingAnnotation; EvAnnotateRRNodeNets; EvCheckRRGraph]).
Proof.
  split; [reflexivity |].
  apply (link_arch_unsupported_rr_graph Fixture.passes Fixture.no_rounding
           (Fixture.vpr_of Fixture.bidir_graph) Fixture.ctx0 false).
  reflexivity.
Defined.

(** C2 fails as stated: on a graph with a bidirectional CHANX node, the
    device annotation and the routing annotation come out of [link_arch]
    populated. *)
Lemma link_arch_bidir_populates_annotations :
  is_vpr_rr_graph_supported Fixture.bidir_graph = false /\
  vpr_device_annotation
    (fst (link_arch Fixture.passes Fixture.no_rounding
            (Fixture.vpr_of Fixture.bidir_graph) Fixture.ctx0 false))
  <> vpr_device_annotation Fixture.ctx0 /\
  vpr_routing_annotation
    (fst (link_arch Fixture.passes Fixture.no_rounding
            (Fixture.vpr_of Fixture.bidir_graph) Fixture.ctx0 false))
  <> vpr_routing_annotation Fixture.ctx0.
Proof.
  split; [reflexivity |].
  split; intros H; vm_compute in H; discriminate H.
Qed.

(* ------------------------------------------------------------------ *)
(** ** annotate_simulation_setting *)

(** C7: when the configured operating clock frequency is not the sentinel
    (it does not compare equal to 0.), [annotate_simulation_setting]
    returns the setting unchanged, every field included, and runs no timing
    analysis. *)
Theorem annotate_simulation_setting_non_sentinel
  {DG AC CC RC PC CL AD DA CA RA GS ML TD PA : Type}
  (passes : @LinkPasses DG AC CC RC PC CL AD DA CA RA GS ML TD PA)
  (fd : float -> float) (vpr : VprContext) (s : SimulationSetting) :
  PrimFloat.eqb 0%float (operating_clock_frequency s) = false ->
  annotate_simulation_setting passes fd vpr s = (s, []).
Proof.
  intros H. unfold annotate_simulation_setting. rewrite H. reflexivity.
Qed.

Lemma annotate_simulation_setting_non_sentinel_witness :
  PrimFloat.eqb 0%float (operating_clock_frequency Fixture.sim_fixed) = false /\
  annotate_simulation_setting Fixture.passes Fixture.no_rounding
    (Fixture.vpr_of Fixture.unidir_graph) Fixture.sim_fixed = (Fixture.sim_fixed, []).
Proof.
  split; [reflexivity |].
  apply (annotate_simulation_setting_non_sentinel Fixture.passes Fixture.no_rounding
           (Fixture.vpr_of Fixture.unidir_graph) Fixture.sim_fixed).
  reflexivity.
Defined.

(** C9: the sentinel is the value comparing equal to 0. (C++ [==]):
    [annotate_simulation_setting] calls the timing analysis exactly when
    [0. == operating_clock_frequency]; on every other value (a negative
    one such as -5. included) the setting is returned untouched. *)
Theorem annotate_simulation_setting_sentinel_is_zero
  {DG AC CC RC PC CL AD DA CA RA GS ML TD PA : Type}
  (passes : @LinkPasses DG AC CC RC PC CL AD DA CA RA GS ML TD PA)
  (fd : float -> float) (vpr : VprContext) (s : SimulationSetting) :
  (In EvTimingAnalysis (snd (annotate_simulation_setting passes fd vpr s)) <->
     PrimFloat.eqb 0%float (operating_clock_frequency s) = true) /\
  (PrimFloat.eqb 0%float (operating_clock_frequency s) = false ->
     fst (annotate_simulation_setting passes fd vpr s) = s).
Proof.
  unfold annotate_simulation_setting.
  destruct (PrimFloat.eqb 0%float (operating_clock_frequency s)); simpl.
  - split; [tauto | discriminate].
  - split; [split; [contradiction | discriminate] | reflexivity].
Qed.

Lemma annotate_simulation_setting_sentinel_is_zero_witness :
  PrimFloat.eqb 0%float (operating_clock_frequency Fixture.sim_negative) = false /\
  fst (annotate_simulation_setting Fixture.passes Fixture.no_rounding
         (Fixture.vpr_of Fixture.unidir_graph) Fixture.sim_negative)
  = Fixture.sim_negative.
Proof.
  split; [reflexivity |].
  apply (proj2 (annotate_simulation_setting_sentinel_is_zero Fixture.passes
                  Fixture.no_rounding (Fixture.vpr_of Fixture.unidir_graph)
                  Fixture.sim_negative)).
  reflexivity.
Defined.

(** The sentinel test on a few values: -0. compares equal to 0., a
    negative frequency does not. *)
Example sentinel_negative_zero : PrimFloat.eqb 0%float (-0)%float = true.
Proof. reflexivity. Qed.
Example sentinel_negative : PrimFloat.eqb 0%float (-5)%float = false.
Proof. reflexivity. Qed.

(** With the sentinel, the frequency is 1 / (T (1 + s)) up to the
    rounding of the two conversions to [float]: here T = 0.5, s = 0.25. *)
Example annotate_simulation_setting_derived :
  annotate_simulation_setting Fixture.passes Fixture.no_rounding
    (Fixture.vpr_of Fixture.unidir_graph) Fixture.sim_derive
  = (set_operating_clock_frequency Fixture.sim_derive (1 / (0.5 * 1.25))%float,
     [EvTimingAnalysis]).
Proof. reflexivity. Qed.

(** C6 (as the code has it): with the sentinel frequency,
    [annotate_simulation_setting] runs the timing analysis once and sets the
    operating frequency to [float(1 / T_crit)] where
    [T_crit = float(T * (1. + s))] is computed in double from the least-slack
    critical-path delay [T] and the slack fraction [s]: the reciprocal of
    [T (1 + s)] up to the roundings to binary32, and nothing else in the
    setting changes. *)
Theorem annotate_simulation_setting_derived_frequency
  {DG AC CC RC PC CL AD DA CA RA GS ML TD PA : Type}
  (passes : @LinkPasses DG AC CC RC PC CL AD DA CA RA GS ML TD PA)
  (fd : float -> float) (vpr : VprContext) (s : SimulationSetting) :
  PrimFloat.eqb 0%float (operating_clock_frequency s) = true ->
  annotate_simulation_setting passes fd vpr s =
  (set_operating_clock_frequency s
     (fd (1 / fd (least_slack_critical_path_delay passes vpr
                  * (1 + operating_clock_frequency_slack s))))%float,
   [EvTimingAnalysis]).
Proof.
  intros H. unfold annotate_simulation_setting. rewrite H. reflexivity.
Qed.

Lemma annotate_simulation_setting_derived_frequency_witness :
  PrimFloat.eqb 0%float (operating_clock_frequency Fixture.sim_derive_no_slack) = true /\
  annotate_simulation_setting (Fixture.passes_with_delay 3%float)
    Fixture.binary32_of_double (Fixture.vpr_of Fixture.unidir_graph)
    Fixture.sim_derive_no_slack =
  (set_operating_clock_frequency Fixture.sim_derive_no_slack
     (Fixture.binary32_of_double
        (1 / Fixture.binary32_of_double (3 * (1 + 0))))%float,
   [EvTimingAnalysis]).
Proof.
  split; [reflexivity |].
  apply (annotate_simulation_setting_derived_frequency (Fixture.passes_with_delay 3%float)
           Fixture.binary32_of_double (Fixture.vpr_of Fixture.unidir_graph)
           Fixture.sim_derive_no_slack).
  reflexivity.
Defined.

(** C6 fails as stated: with [float] rounding to binary32, a delay T = 3
    and a slack s = 0, the derived frequency is 6004799682117632 * 2^-54
    (that is 11184811 * 2^-25, the binary32 value nearest 1/3), and
    frequency * T * (1 + s) is not 1 (as rationals): the frequency is not
    exactly 1 / (T (1 + s)). *)
Lemma annotate_simulation_setting_frequency_not_exact :
  Prim2SF (operating_clock_frequency
    (fst (annotate_simulation_setting (Fixture.passes_with_delay 3%float)
            Fixture.binary32_of_double (Fixture.vpr_of Fixture.unidir_graph)
            Fixture.sim_derive_no_slack)))
  = S754_finite false 6004799682117632%positive (-54)%Z /\
  ~ QArith_base.Qeq
      (QArith_base.Qmult
         (Fixture.float_to_Q (operating_clock_frequency
            (fst (annotate_simulation_setting (Fixture.passes_with_delay 3%float)
                    Fixture.binary32_of_double (Fixture.vpr_of Fixture.unidir_graph)
                    Fixture.sim_derive_no_slack))))
         (QArith_base.Qmult (Fixture.float_to_Q 3%float)
            (QArith_base.Qplus (QArith_base.Qmake 1 1)
               (Fixture.float_to_Q (operating_clock_frequency_slack
                                      Fixture.sim_derive_no_slack)))))
      (QArith_base.Qmake 1 1).
Proof.
  split; [vm_compute; reflexivity |].
  intros H. apply QArith_base.Qeq_bool_iff in H. vm_compute in H. discriminate H.
Qed.

(* ------------------------------------------------------------------ *)
(** ** The multiplexer library *)

Module MuxLibraryFacts.
Import MuxLibraryModel.

Lemma mux_lookup_Some_In (lib : MuxLibrary) (s : MuxSignature) (i : nat) :
  mux_lookup lib s = Some i -> In s lib.
Proof.
  revert i; induction lib as [| e rest IH]; simpl; intros i H; [discriminate |].
  destruct (mux_signature_eq_dec e s) as [-> | _]; [left; reflexivity |].
  destruct (mux_lookup rest s) eqn:E; simpl in H; [| discriminate].
  right; exact (IH _ eq_refl).
Qed.

Lemma mux_lookup_None_notin (lib : MuxLibrary) (s : MuxSignature) :
  mux_lookup lib s = None -> ~ In s lib.
Proof.
  induction lib as [| e rest IH]; simpl; intros H; [tauto |].
  destruct (mux_signature_eq_dec e s) as [-> | Hne]; [discriminate |].
  destruct (mux_lookup rest s) eqn:E; simpl in H; [discriminate |].
  intros [Heq | Hin]; [contradiction | exact (IH eq_refl Hin)].
Qed.

(** One step of the builder keeps the entries distinct, and adds [s]. *)
Lemma add_mux_spec (lib : MuxLibrary) (s : MuxSignature) :
  NoDup lib ->
  NoDup (fst (add_mux lib s)) /\
  (forall x, In x (fst (add_mux lib s)) <-> s = x \/ In x lib).
Proof.
  intros Hnd. unfold add_mux.
  destruct (mux_lookup lib s) as [id |] eqn:E; simpl.
  - apply mux_lookup_Some_In in E.
    split; [exact Hnd |]. intros x; split; [tauto |].
    intros [<- | H]; assumption.
  - apply mux_lookup_None_notin in E. split.
    + apply (Permutation_NoDup (Permutation_cons_append lib s)).
      constructor; assumption.
    + intros x. rewrite in_app_iff. simpl. tauto.
Qed.

Lemma fold_add_mux_spec (insts : list MuxSignature) (lib : MuxLibrary) :
  NoDup lib ->
  NoDup (fold_left (fun lib s => fst (add_mux lib s)) insts lib) /\
  (forall x, In x (fold_left (fun lib s => fst (add_mux lib s)) insts lib) <->
             In x lib \/ In x insts).
Proof.
  revert lib; induction insts as [| s rest IH]; intros lib Hnd; simpl.
  - split; [assumption | tauto].
  - destruct (add_mux_spec lib s Hnd) as [Hnd' Hin'].
    destruct (IH _ Hnd') as [H1 H2].
    split; [exact H1 |]. intros x. rewrite H2, Hin'. tauto.
Qed.

Lemma NoDup_same_elements_length {A : Type} (l l' : list A) :
  NoDup l -> NoDup l' -> (forall x, In x l <-> In x l') ->
  List.length l = List.length l'.
Proof.
  intros H H' E. apply Nat.le_antisymm; apply NoDup_incl_length; try assumption;
    intros x; apply E.
Qed.

End MuxLibraryFacts.

(** C8 (from the spec's description of the builder): the library built from
    the multiplexers of a device has one entry per distinct structural
    signature: its entries are pairwise distinct, they are exactly the
    signatures that occur, and their number is the number of distinct
    signatures among the instances, however many instances share one. *)
Theorem build_device_mux_library_one_entry_per_signature
  (insts : list MuxLibraryModel.MuxSignature) :
  let lib := MuxLibraryModel.build_device_mux_library insts in
  NoDup lib /\
  (forall s, In s lib <-> In s insts) /\
  List.length lib = List.length (nodup MuxLibraryModel.mux_signature_eq_dec insts).
Proof.
  intros lib.
  destruct (MuxLibraryFacts.fold_add_mux_spec insts [] (NoDup_nil _)) as [Hnd Hin].
  assert (E : forall s, In s lib <-> In s insts)
    by (intros s; unfold lib, MuxLibraryModel.build_device_mux_library;
        rewrite Hin; simpl; tauto).
  split; [exact Hnd | split; [exact E |]].
  apply MuxLibraryFacts.NoDup_same_elements_length;
    [exact Hnd | apply NoDup_nodup |].
  intros s. rewrite nodup_In. apply E.
Qed.

(** Two tiles of identical structure: one library entry, not two. *)
Example build_device_mux_library_two_identical_tiles :
  let m := MuxLibraryModel.mkMuxSignature [1; 2] 0 3 in
  MuxLibraryModel.build_device_mux_library [m; m] = [m].
Proof. reflexivity. Qed.

(* ------------------------------------------------------------------ *)
(** ** repack *)

(** The constraints read from the file do not reach the packing: the
    result of [repack] is the same whatever [read_xml_repack_design_constraints]
    returns, and the same as when the option is off. *)
Lemma repack_design_constraints_unused
  {DG AC CC RC PC CL AD DA CA RA GS ML TD PA DC : Type}
  (rp : @RepackPasses DG AC CC CL DA CA DC)
  (vpr : @VprContext DG AC CC PC RC)
  (ctx : @OpenfpgaContext CL AD DA CA RA GS ML TD PA) (opts : RepackOptions) :
  load_repack_design_constraints rp opts <> None ->
  repack rp vpr ctx opts =
  repack rp vpr ctx (mkRepackOptions false EmptyString (verbose_enabled opts)).
Proof.
  intros H. unfold repack at 1.
  destruct (load_repack_design_constraints rp opts); [reflexivity | contradiction].
Qed.

(** C10: with the design_constraints option enabled and an empty value,
    the assertion [VTR_ASSERT(false == dc_fname.empty())] fails: [repack]
    aborts instead of returning a status code. *)
Theorem repack_empty_design_constraints_aborts
  {DG AC CC RC PC CL AD DA CA RA GS ML TD PA DC : Type}
  (rp : @RepackPasses DG AC CC CL DA CA DC)
  (vpr : @VprContext DG AC CC PC RC)
  (ctx : @OpenfpgaContext CL AD DA CA RA GS ML TD PA) (opts : RepackOptions) :
  design_constraints_enabled opts = true ->
  design_constraints_value opts = EmptyString ->
  repack rp vpr ctx opts = None.
Proof.
  intros Hen Hval.
  unfold repack, load_repack_design_constraints. rewrite Hen, Hval. reflexivity.
Qed.

Lemma repack_empty_design_constraints_aborts_witness :
  design_constraints_enabled Fixture.opts_dc_empty = true /\
  design_constraints_value Fixture.opts_dc_empty = EmptyString /\
  repack (Fixture.rpasses true) (Fixture.vpr_of Fixture.unidir_graph) Fixture.ctx0
    Fixture.opts_dc_empty = None.
Proof.
  split; [reflexivity | split; [reflexivity |]].
  apply (repack_empty_design_constraints_aborts (Fixture.rpasses true)
           (Fixture.vpr_of Fixture.unidir_graph) Fixture.ctx0 Fixture.opts_dc_empty);
    reflexivity.
Defined.

(** C3 (code defect): a run in which [pack_physical_pbs] fails still
    makes [repack] return [CMD_EXEC_SUCCESS] (0), not a non-zero code. *)
Theorem repack_pack_failure_returns_success :
  (let '(_, _, ok) :=
     pack_physical_pbs (Fixture.rpasses false)
       (device (Fixture.vpr_of Fixture.unidir_graph)) tt tt [] [] false in
   ok = false) /\
  repack (Fixture.rpasses false) (Fixture.vpr_of Fixture.unidir_graph) Fixture.ctx0
    Fixture.opts_none
  = Some (CMD_EXEC_SUCCESS, set_vpr_clustering_annotation Fixture.ctx0 [9; 8]).
Proof.
  split; reflexivity.
Qed.

(** C1 (code defect): [repack] loads the design constraints but never
    passes them to [pack_physical_pbs], and returns [CMD_EXEC_SUCCESS]
    unconditionally.  Two constraints claiming the same physical pin (atom
    nets 1 and 2 on pin 7) do not make it fail with a conflict: it returns
    [CMD_EXEC_SUCCESS], with the same packing as without constraints. *)
Lemma repack_conflicting_constraints_succeed :
  load_repack_design_constraints (Fixture.rpasses true) Fixture.opts_dc
    = Some [(1, 7); (2, 7)] /\
  repack (Fixture.rpasses true) (Fixture.vpr_of Fixture.unidir_graph) Fixture.ctx0
    Fixture.opts_dc
  = Some (CMD_EXEC_SUCCESS, set_vpr_clustering_annotation Fixture.ctx0 [9; 8]) /\
  repack (Fixture.rpasses true) (Fixture.vpr_of Fixture.unidir_graph) Fixture.ctx0
    Fixture.opts_dc
  = repack (Fixture.rpasses true) (Fixture.vpr_of Fixture.unidir_graph) Fixture.ctx0
      Fixture.opts_none.
Proof.
  split; [reflexivity | split; reflexivity].
Qed.

(* ================================================================== *)
(** * Further properties of the same functions *)

(* ------------------------------------------------------------------ *)
(** ** is_vpr_rr_graph_supported *)

(** The check of a graph made of two parts is the conjunction of the
    checks of the parts. *)
Theorem is_vpr_rr_graph_supported_app (g1 g2 : RRGraph) :
  is_vpr_rr_graph_supported (g1 ++ g2)
  = is_vpr_rr_graph_supported g1 && is_vpr_rr_graph_supported g2.
Proof.
  rewrite !is_vpr_rr_graph_supported_forallb. apply forallb_app.
Qed.

(** The order in which [rr_graph.nodes()] lists the nodes does not matter. *)
Theorem is_vpr_rr_graph_supported_perm (g g' : RRGraph) :
  Permutation g g' -> is_vpr_rr_graph_supported g = is_vpr_rr_graph_supported g'.
Proof.
  rewrite !is_vpr_rr_graph_supported_forallb.
  induction 1 as [| n l l' _ IH | n m l | l l' l'' _ IH1 _ IH2]; simpl.
  - reflexivity.
  - rewrite IH; reflexivity.
  - rewrite !andb_assoc, (andb_comm (negb (is_bidir_chan_node m))); reflexivity.
  - congruence.
Qed.

Lemma is_vpr_rr_graph_supported_perm_witness :
  Permutation Fixture.bidir_graph (rev Fixture.bidir_graph) /\
  is_vpr_rr_graph_supported Fixture.bidir_graph
  = is_vpr_rr_graph_supported (rev Fixture.bidir_graph).
Proof.
  split; [apply Permutation_rev |].
  apply is_vpr_rr_graph_supported_perm, Permutation_rev.
Defined.

(* ------------------------------------------------------------------ *)
(** ** annotate_simulation_setting *)

(** Only the operating clock frequency can change: the slack and the
    number of clock cycles are never touched (the cycle count is not
    inferred, despite the header comment), and at most the timing analysis
    is called. *)
Theorem annotate_simulation_setting_frame
  {DG AC CC RC PC CL AD DA CA RA GS ML TD PA : Type}
  (passes : @LinkPasses DG AC CC RC PC CL AD DA CA RA GS ML TD PA)
  (fd : float -> float) (vpr : VprContext) (s : SimulationSetting) :
  let r := annotate_simulation_setting passes fd vpr s in
  operating_clock_frequency_slack (fst r) = operating_clock_frequency_slack s /\
  num_clock_cycles (fst r) = num_clock_cycles s /\
  (snd r = [] \/ snd r = [EvTimingAnalysis]).
Proof.
  unfold annotate_simulation_setting.
  destruct (PrimFloat.eqb 0%float (operating_clock_frequency s)); simpl; auto.
Qed.

(* ------------------------------------------------------------------ *)
(** ** link_arch *)

Ltac link_arch_cases :=
  unfold link_arch, annotate_simulation_setting;
  destruct (is_vpr_rr_graph_supported _); cbn;
  [destruct (PrimFloat.eqb 0%float _) |].

(** Each pass is called at most once by [link_arch]. *)
Theorem link_arch_calls_once
  {DG AC CC RC PC CL AD DA CA RA GS ML TD PA : Type}
  (passes : @LinkPasses DG AC CC RC PC CL AD DA CA RA GS ML TD PA)
  (fd : float -> float) (vpr : VprContext) (ctx : OpenfpgaContext) (verbose : bool) :
  NoDup (snd (link_arch passes fd vpr ctx verbose)).
Proof.
  rewrite link_arch_calls.
  destruct (is_vpr_rr_graph_supported _); [destruct (PrimFloat.eqb _ _) |]; cbn;
    repeat (constructor; [simpl; intros H; repeat destruct H as [H | H];
                          try discriminate; contradiction |]);
    constructor.
Qed.

(** [link_arch] never changes the clustering annotation. *)
Theorem link_arch_keeps_clustering_annotation
  {DG AC CC RC PC CL AD DA CA RA GS ML TD PA : Type}
  (passes : @LinkPasses DG AC CC RC PC CL AD DA CA RA GS ML TD PA)
  (fd : float -> float) (vpr : VprContext) (ctx : OpenfpgaContext) (verbose : bool) :
  vpr_clustering_annotation (fst (link_arch passes fd vpr ctx verbose))
  = vpr_clustering_annotation ctx.
Proof. link_arch_cases; reflexivity. Qed.

(** In the architecture, [link_arch] can change only the operating clock
    frequency: the circuit library, the direct rules, the frequency slack and
    the number of clock cycles are kept. *)
Theorem link_arch_arch_frame
  {DG AC CC RC PC CL AD DA CA RA GS ML TD PA : Type}
  (passes : @LinkPasses DG AC CC RC PC CL AD DA CA RA GS ML TD PA)
  (fd : float -> float) (vpr : VprContext) (ctx : OpenfpgaContext) (verbose : bool) :
  let a := arch (fst (link_arch passes fd vpr ctx verbose)) in
  circuit_lib a = circuit_lib (arch ctx) /\
  arch_direct a = arch_direct (arch ctx) /\
  operating_clock_frequency_slack (sim_setting a)
    = operating_clock_frequency_slack (sim_setting (arch ctx)) /\
  num_clock_cycles (sim_setting a) = num_clock_cycles (sim_setting (arch ctx)).
Proof. link_arch_cases; auto. Qed.

(** Whatever the outcome of the check, the device annotation is the result
    of annotate_pb_types, then annotate_pb_graph, then
    annotate_rr_graph_circuit_models, and the routing annotation is the
    result of init on the routing graph, then annotate_rr_node_nets. *)
Theorem link_arch_device_and_routing_annotations
  {DG AC CC RC PC CL AD DA CA RA GS ML TD PA : Type}
  (passes : @LinkPasses DG AC CC RC PC CL AD DA CA RA GS ML TD PA)
  (fd : float -> float) (vpr : VprContext) (ctx : OpenfpgaContext) (verbose : bool) :
  let r := fst (link_arch passes fd vpr ctx verbose) in
  vpr_device_annotation r =
    annotate_rr_graph_circuit_models passes (device vpr) (arch ctx)
      (annotate_pb_graph passes (device vpr)
         (annotate_pb_types passes (device vpr) (arch ctx)
            (vpr_device_annotation ctx) verbose) verbose) verbose /\
  vpr_routing_annotation r =
    annotate_rr_node_nets passes (device vpr) (clustering vpr) (routing vpr)
      (vpr_routing_annotation_init passes (rr_graph (device vpr))
         (vpr_routing_annotation ctx)) verbose.
Proof. link_arch_cases; auto. Qed.

(** On a supported graph, the GSBs are built from the previous ones, the
    mux library is built from the context that already holds the new GSBs
    and the new device and routing annotations, the tile directs from the
    architecture's direct rules, and the placement annotation from the
    previous one. *)
Theorem link_arch_supported_builds
  {DG AC CC RC PC CL AD DA CA RA GS ML TD PA : Type}
  (passes : @LinkPasses DG AC CC RC PC CL AD DA CA RA GS ML TD PA)
  (fd : float -> float) (vpr : VprContext) (ctx : OpenfpgaContext) (verbose : bool) :
  is_vpr_rr_graph_supported (rr_graph (device vpr)) = true ->
  let r := fst (link_arch passes fd vpr ctx verbose) in
  let gsb := annotate_device_rr_gsb passes (device vpr) (device_rr_gsb ctx) verbose in
  device_rr_gsb r = gsb /\
  mux_lib r =
    build_device_mux_library passes (device vpr)
      (set_device_rr_gsb
         (set_vpr_routing_annotation
            (set_vpr_device_annotation ctx (vpr_device_annotation r))
            (vpr_routing_annotation r)) gsb) /\
  tile_direct r = build_device_tile_direct passes (device vpr) (arch_direct (arch ctx)) /\
  vpr_placement_annotation r =
    annotate_mapped_blocks passes (device vpr) (clustering vpr) (placement vpr)
      (vpr_placement_annotation ctx).
Proof.
  intros Hsup. unfold link_arch, annotate_simulation_setting. rewrite Hsup. cbn.
  destruct (PrimFloat.eqb 0%float _); cbn; auto.
Qed.

Lemma link_arch_supported_builds_witness :
  is_vpr_rr_graph_supported (rr_graph (device (Fixture.vpr_of Fixture.unidir_graph)))
    = true /\
  device_rr_gsb (fst (link_arch Fixture.passes Fixture.no_rounding
                   (Fixture.vpr_of Fixture.unidir_graph) Fixture.ctx0 false)) = [4] /\
  mux_lib (fst (link_arch Fixture.passes Fixture.no_rounding
                  (Fixture.vpr_of Fixture.unidir_graph) Fixture.ctx0 false)) = [5] /\
  tile_direct (fst (link_arch Fixture.passes Fixture.no_rounding
                      (Fixture.vpr_of Fixture.unidir_graph) Fixture.ctx0 false)) = [6] /\
  vpr_placement_annotation (fst (link_arch Fixture.passes Fixture.no_rounding
                      (Fixture.vpr_of Fixture.unidir_graph) Fixture.ctx0 false)) = [7].
Proof.
  split; [reflexivity |].
  apply (link_arch_supported_builds Fixture.passes Fixture.no_rounding
           (Fixture.vpr_of Fixture.unidir_graph) Fixture.ctx0 false).
  reflexivity.
Defined.

(* ------------------------------------------------------------------ *)
(** ** repack *)

(** [repack] aborts exactly when the design_constraints option is enabled
    with an empty value; otherwise it returns. *)
Theorem repack_aborts_iff
  {DG AC CC RC PC CL AD DA CA RA GS ML TD PA DC : Type}
  (rp : @RepackPasses DG AC CC CL DA CA DC)
  (vpr : @VprContext DG AC CC PC RC)
  (ctx : @OpenfpgaContext CL AD DA CA RA GS ML TD PA) (opts : RepackOptions) :
  repack rp vpr ctx opts = None <->
  design_constraints_enabled opts = true /\
  string_empty (design_constraints_value opts) = true.
Proof.
  unfold repack, load_repack_design_constraints.
  destruct (design_constraints_enabled opts);
    [destruct (string_empty (design_constraints_value opts)) |]; simpl;
    try (destruct (pack_physical_pbs rp _ _ _ _ _ _) as [[da ca] ok];
         destruct (build_physical_lut_truth_tables rp _ _ _ _ _ _) as [ca' ok']);
    split; intros H; try discriminate; try (destruct H; discriminate);
    auto.
Qed.

(** Whenever [repack] returns, its exit code is [CMD_EXEC_SUCCESS]. *)
Theorem repack_exit_code_success
  {DG AC CC RC PC CL AD DA CA RA GS ML TD PA DC : Type}
  (rp : @RepackPasses DG AC CC CL DA CA DC)
  (vpr : @VprContext DG AC CC PC RC)
  (ctx : @OpenfpgaContext CL AD DA CA RA GS ML TD PA) (opts : RepackOptions)
  (code : nat) (ctx' : OpenfpgaContext) :
  repack rp vpr ctx opts = Some (code, ctx') -> code = CMD_EXEC_SUCCESS.
Proof.
  unfold repack.
  destruct (load_repack_design_constraints rp opts); [| discriminate].
  destruct (pack_physical_pbs rp _ _ _ _ _ _) as [[da ca] ok].
  destruct (build_physical_lut_truth_tables rp _ _ _ _ _ _) as [ca' ok'].
  intros H; injection H; auto.
Qed.

Lemma repack_exit_code_success_witness :
  repack (Fixture.rpasses false) (Fixture.vpr_of Fixture.unidir_graph) Fixture.ctx0
    Fixture.opts_dc
  = Some (0, set_vpr_clustering_annotation Fixture.ctx0 [9; 8]) /\
  0 = CMD_EXEC_SUCCESS.
Proof.
  split; [reflexivity |].
  apply (repack_exit_code_success (Fixture.rpasses false)
           (Fixture.vpr_of Fixture.unidir_graph) Fixture.ctx0 Fixture.opts_dc
           0 (set_vpr_clustering_annotation Fixture.ctx0 [9; 8])).
  reflexivity.
Defined.

(** [repack] changes only the device and clustering annotations: the
    device annotation is the one [pack_physical_pbs] produced, and the
    clustering annotation is [build_physical_lut_truth_tables] applied to
    the clustering and device annotations [pack_physical_pbs] produced;
    the architecture, the routing and placement annotations, the GSBs, the
    mux library and the tile directs are kept. *)
Theorem repack_updates
  {DG AC CC RC PC CL AD DA CA RA GS ML TD PA DC : Type}
  (rp : @RepackPasses DG AC CC CL DA CA DC)
  (vpr : @VprContext DG AC CC PC RC)
  (ctx : @OpenfpgaContext CL AD DA CA RA GS ML TD PA) (opts : RepackOptions)
  (code : nat) (ctx' : OpenfpgaContext) :
  repack rp vpr ctx opts = Some (code, ctx') ->
  let '(da, ca, _) :=
    pack_physical_pbs rp (device vpr) (atom vpr) (clustering vpr)
      (vpr_device_annotation ctx) (vpr_clustering_annotation ctx)
      (verbose_enabled opts) in
  vpr_device_annotation ctx' = da /\
  vpr_clustering_annotation ctx' =
    fst (build_physical_lut_truth_tables rp ca (atom vpr) (clustering vpr) da
           (circuit_lib (arch ctx)) (verbose_enabled opts)) /\
  arch ctx' = arch ctx /\
  vpr_routing_annotation ctx' = vpr_routing_annotation ctx /\
  device_rr_gsb ctx' = device_rr_gsb ctx /\
  mux_lib ctx' = mux_lib ctx /\
  tile_direct ctx' = tile_direct ctx /\
  vpr_placement_annotation ctx' = vpr_placement_annotation ctx.
Proof.
  unfold repack.
  destruct (load_repack_design_constraints rp opts); [| discriminate].
  destruct (pack_physical_pbs rp _ _ _ _ _ _) as [[da ca] ok].
  cbn.
  destruct (build_physical_lut_truth_tables rp ca _ _ da _ _) as [ca' ok'].
  intros H; injection H as <- <-. cbn. repeat split.
Qed.

Lemma repack_updates_witness :
  repack (Fixture.rpasses true) (Fixture.vpr_of Fixture.unidir_graph) Fixture.ctx0
    Fixture.opts_none
  = Some (0, set_vpr_clustering_annotation Fixture.ctx0 [9; 8]) /\
  vpr_device_annotation (set_vpr_clustering_annotation Fixture.ctx0 [9; 8]) = [] /\
  vpr_clustering_annotation (set_vpr_clustering_annotation Fixture.ctx0 [9; 8]) = [9; 8] /\
  arch (set_vpr_clustering_annotation Fixture.ctx0 [9; 8]) = arch Fixture.ctx0 /\
  vpr_routing_annotation (set_vpr_clustering_annotation Fixture.ctx0 [9; 8]) = [] /\
  device_rr_gsb (set_vpr_clustering_annotation Fixture.ctx0 [9; 8]) = [] /\
  mux_lib (set_vpr_clustering_annotation Fixture.ctx0 [9; 8]) = [] /\
  tile_direct (set_vpr_clustering_annotation Fixture.ctx0 [9; 8]) = [] /\
  vpr_placement_annotation (set_vpr_clustering_annotation Fixture.ctx0 [9; 8]) = [].
Proof.
  split; [reflexivity |].
  exact (repack_updates (Fixture.rpasses true) (Fixture.vpr_of Fixture.unidir_graph)
           Fixture.ctx0 Fixture.opts_none 0
           (set_vpr_clustering_annotation Fixture.ctx0 [9; 8]) eq_refl).
Defined.

Lemma repack_design_constraints_unused_witness :
  load_repack_design_constraints (Fixture.rpasses true) Fixture.opts_dc <> None /\
  repack (Fixture.rpasses true) (Fixture.vpr_of Fixture.unidir_graph) Fixture.ctx0
    Fixture.opts_dc
  = repack (Fixture.rpasses true) (Fixture.vpr_of Fixture.unidir_graph) Fixture.ctx0
      (mkRepackOptions false EmptyString (verbose_enabled Fixture.opts_dc)).
Proof.
  split; [discriminate |].
  apply (repack_design_constraints_unused (Fixture.rpasses true)
           (Fixture.vpr_of Fixture.unidir_graph) Fixture.ctx0 Fixture.opts_dc).
  discriminate.
Defined.
